(** * litestar-browser-reload: the reload session, the watch task and the plugin

    A shallow embedding of [src/litestar_browser_reload/__init__.py].

    The module has three parts, and the development follows them:
    - the closure [reload_endpoint], holding the coroutine [watch_reload] and
      the listener class [BrowserReloadHandler] with its four methods;
    - the module-level [version_id];
    - the plugin [BrowserReloadPlugin] with [on_app_init].

    The coroutines run on a single-threaded cooperative event loop.  A
    coroutine is cut at its [await] expressions into synchronous segments;
    a segment is a computation in the monad [M] below (state of the listener
    instance, exceptions), and the event loop is a labelled step function
    [step] that runs one segment of one task at a time.  A property "under
    every interleaving" is a property of [run sched] for every schedule
    [sched]. *)

From stdpp Require Import base option list strings gmap.

Open Scope string_scope.
Open Scope list_scope.

(** ** Values that cross the module's boundary *)

(** A filesystem path, as its components. *)
Definition Path : Type := list string.

(** [watchfiles.Change]. *)
Inductive Change : Type := Added | Modified | Deleted.

Definition FileChange : Type := (Change * Path)%type.

(** One set of changes, as [awatch] yields it. *)
Definition Batch : Type := list FileChange.

(** The objects accepted as [watch_filter]: an instance of
    [watchfiles.DefaultFilter], recorded with the two keyword arguments this
    module passes to its constructor, or any other filter object, recorded
    by its [__call__]. *)
Inductive WatchFilter : Type :=
| DefaultFilter (ignore_dirs ignore_entity_patterns : option (list string))
| CustomFilter (call : Change → Path → bool).

(** Python truthiness of a filter object: neither [BaseFilter] nor
    [DefaultFilter] defines [__bool__] or [__len__]. *)
Definition filter_truthy (f : WatchFilter) : bool := true.

(** The arguments of [reload_endpoint], which [watch_reload] and the
    listener class close over. *)
Record WatchConfiguration : Type := mkConfig {
  watch_paths : list Path;
  ignore_dirs : option (list string);
  ignore_entity_patterns : option (list string);
  watch_filter : option WatchFilter
}.

(** What the attribute [self.ws] can hold. *)
Inductive PyVal : Type :=
| PyNone
| PyWebSocket (conn : nat).

Definition truthy (v : PyVal) : bool :=
  match v with
  | PyNone => false
  | PyWebSocket _ => true
  end.

(** A JSON object with string values, in key order. *)
Definition Json : Type := list (string * string).

Inductive Payload : Type :=
| PJson (j : Json)
| PText (s : string).

(** [{"type": "ping", "versionId": version_id}] *)
Definition ping_msg (version_id : string) : Json :=
  [("type", "ping"); ("versionId", version_id)].

(** [{"type": "reload"}] *)
Definition reload_msg : Json := [("type", "reload")].

Inductive Exn : Type :=
| AttributeError (attr : string)
| CancelledError
| WebSocketDisconnect
| FileNotFoundError.

(** How a task ended. *)
Inductive Outcome : Type :=
| Returned
| Cancelled
| Raised (e : Exn).

(** Where the task created from [watch_reload(self.prompt_reload)] stands. *)
Inductive TaskState : Type :=
| TCreated       (* scheduled by create_task, body not yet entered *)
| TAwaitBatch    (* suspended in [async for _ in awatch(...)] *)
| TAwaitSend     (* suspended in [await prompt_reload()] *)
| TDone (o : Outcome).

(** Where the listener stands in the connection's life. *)
Inductive Phase : Type :=
| Connecting     (* on_accept not yet called *)
| Accepting      (* on_accept suspended in [await self.ws.send_json(...)] *)
| Active         (* on_accept returned *)
| Closing        (* on_disconnect suspended in [await self._watch_task] *)
| Closed (o : Outcome).

(** The calls that leave the module, in the order they are made. *)
Inductive Event : Type :=
| EvLog (msg : string)                             (* logger.debug(msg) *)
| EvCreateTask                                     (* asyncio.create_task(...) *)
| EvAwatch (paths : list Path) (flt : WatchFilter) (* awatch called on paths, flt *)
| EvBatch (b : Batch)                              (* awatch yielded b *)
| EvSend (conn : nat) (p : Payload)                (* handed to the connection *)
| EvCancel.                                        (* task.cancel() on a pending task *)

(** ** The listener instance and its connection *)

Record Session : Type := mkSession {
  conn : nat;                      (* the connection this listener serves *)
  ws : option PyVal;               (* self.ws; None: attribute not assigned *)
  watch_task : option TaskState;   (* self._watch_task and that task's state *)
  must_cancel : bool;              (* cancel() was called on the pending task *)
  phase : Phase;
  connected : bool;                (* the transport still accepts messages *)
  trace : list Event
}.

Definition init_session (c : nat) : Session :=
  {| conn := c; ws := None; watch_task := None; must_cancel := false;
     phase := Connecting; connected := true; trace := [] |}.

Definition set_ws (v : option PyVal) (s : Session) : Session :=
  {| conn := conn s; ws := v; watch_task := watch_task s;
     must_cancel := must_cancel s; phase := phase s;
     connected := connected s; trace := trace s |}.

Definition set_watch_task (t : option TaskState) (s : Session) : Session :=
  {| conn := conn s; ws := ws s; watch_task := t;
     must_cancel := must_cancel s; phase := phase s;
     connected := connected s; trace := trace s |}.

Definition set_must_cancel (b : bool) (s : Session) : Session :=
  {| conn := conn s; ws := ws s; watch_task := watch_task s;
     must_cancel := b; phase := phase s;
     connected := connected s; trace := trace s |}.

Definition set_phase (p : Phase) (s : Session) : Session :=
  {| conn := conn s; ws := ws s; watch_task := watch_task s;
     must_cancel := must_cancel s; phase := p;
     connected := connected s; trace := trace s |}.

Definition set_connected (b : bool) (s : Session) : Session :=
  {| conn := conn s; ws := ws s; watch_task := watch_task s;
     must_cancel := must_cancel s; phase := phase s;
     connected := b; trace := trace s |}.

Definition emit (e : Event) (s : Session) : Session :=
  {| conn := conn s; ws := ws s; watch_task := watch_task s;
     must_cancel := must_cancel s; phase := phase s;
     connected := connected s; trace := trace s ++ [e] |}.

(** ** Synchronous segments: state and exceptions *)

Inductive Result (A : Type) : Type :=
| Ok (a : A)
| Err (e : Exn).
Arguments Ok {A} a.
Arguments Err {A} e.

Definition M (A : Type) : Type := Session → Result A * Session.

#[global] Instance M_ret : MRet M := λ A a s, (Ok a, s).

#[global] Instance M_bind : MBind M := λ A B f m s,
  match m s with
  | (Ok a, s') => f a s'
  | (Err e, s') => (Err e, s')
  end.

Definition raise {A : Type} (e : Exn) : M A := λ s, (Err e, s).

Definition get : M Session := λ s, (Ok s, s).

Definition modify (f : Session → Session) : M unit := λ s, (Ok tt, f s).

(** [try: m except asyncio.CancelledError: h] *)
Definition try_except_cancelled {A : Type} (m : M A) (h : M A) : M A := λ s,
  match m s with
  | (Err CancelledError, s') => h s'
  | r => r
  end.

Definition logger_debug (msg : string) : M unit := modify (emit (EvLog msg)).

(** Reading [self.ws]: an attribute that was never assigned raises. *)
Definition getattr_ws : M PyVal :=
  s ← get;
  match ws s with
  | Some v => mret v
  | None => raise (AttributeError "ws")
  end.

Definition getattr_watch_task : M TaskState :=
  s ← get;
  match watch_task s with
  | Some t => mret t
  | None => raise (AttributeError "_watch_task")
  end.

(** [ws.send_json(msg)] up to its first suspension: the message is handed to
    the connection, or the call raises because the client is gone.  The
    caller's [await] suspends after this hand-over. *)
Definition send_json (w : PyVal) (msg : Json) : M unit :=
  match w with
  | PyNone => raise (AttributeError "send_json")
  | PyWebSocket c =>
      s ← get;
      if connected s then modify (emit (EvSend c (PJson msg)))
      else raise WebSocketDisconnect
  end.

(** ** The file watcher *)

(** [root] is [p] or one of its ancestors. *)
Fixpoint is_under (root p : Path) : bool :=
  match root, p with
  | [], _ => true
  | r :: root', x :: p' => String.eqb r x && is_under root' p'
  | _ :: _, [] => false
  end.

Definition under_roots (paths : list Path) (p : Path) : bool :=
  existsb (λ root, is_under root p) paths.

Section Listener.

(** The filesystem: which paths exist when the watcher is opened. *)
Context (fs_exists : Path → bool).

(** [DefaultFilter.__call__], of the watch library. *)
Context (default_filter_call :
  option (list string) → option (list string) → Change → Path → bool).

(** The closure of [reload_endpoint] and the module's global. *)
Context (cfg : WatchConfiguration) (version_id : string).

Definition filter_call (f : WatchFilter) (c : Change) (p : Path) : bool :=
  match f with
  | DefaultFilter d e => default_filter_call d e c p
  | CustomFilter call => call c p
  end.

(** Modelled from the spec: the File Watcher ([watchfiles.awatch], a library
    this module imports).  Opening it on a root that does not exist is the
    fatal error of the error taxonomy; it reports the changes under its
    roots that pass the filter, and never surfaces an empty batch. *)
Definition awatch_open (paths : list Path) : M unit :=
  if forallb fs_exists paths then mret tt else raise FileNotFoundError.

Definition awatch_next (paths : list Path) (flt : WatchFilter)
    (raw : list FileChange) : option Batch :=
  match List.filter (λ cp, under_roots paths cp.2 && filter_call flt cp.1 cp.2) raw with
  | [] => None
  | changes => Some changes
  end.

(** ** [watch_reload] *)

(** [watch_filter or DefaultFilter(ignore_dirs=..., ignore_entity_patterns=...)] *)
Definition filter_class : WatchFilter :=
  match watch_filter cfg with
  | Some f =>
      if filter_truthy f then f
      else DefaultFilter (ignore_dirs cfg) (ignore_entity_patterns cfg)
  | None => DefaultFilter (ignore_dirs cfg) (ignore_entity_patterns cfg)
  end.

(** ** [BrowserReloadHandler] *)

Definition prompt_reload : M unit :=
  w ← getattr_ws;
  if truthy w then
    logger_debug "prompting reload";;
    send_json w reload_msg
  else mret tt.

(** From the entry of [watch_reload] to the first suspension of the loop. *)
Definition watch_reload_enter : M unit :=
  modify (emit (EvAwatch (watch_paths cfg) filter_class));;
  awatch_open (watch_paths cfg).

(** One turn of the loop: the watcher yields [b], the body calls
    [prompt_reload], which runs up to the suspension in its send. *)
Definition watch_reload_body (b : Batch) : M unit :=
  modify (emit (EvBatch b));;
  prompt_reload.

Definition create_task : M TaskState :=
  modify (emit EvCreateTask);;
  mret TCreated.

(** [on_accept], up to the suspension in its last line. *)
Definition on_accept (socket : PyVal) : M unit :=
  logger_debug "reload websocket connecting";;
  t ← create_task;
  modify (set_watch_task (Some t));;
  modify (set_ws (Some socket));;
  w ← getattr_ws;
  send_json w (ping_msg version_id).

(** [Task.cancel]: no effect on a task that is done. *)
Definition task_cancel (t : TaskState) : M unit :=
  match t with
  | TDone _ => mret tt
  | _ => modify (emit EvCancel);; modify (set_must_cancel true)
  end.

(** [on_disconnect], up to [await self._watch_task]. *)
Definition on_disconnect_enter : M unit :=
  logger_debug "reload websocket disconnecting";;
  t ← getattr_watch_task;
  task_cancel t.

(** What [await task] gives once the task is done. *)
Definition await_done (o : Outcome) : M unit :=
  match o with
  | Returned => mret tt
  | Cancelled => raise CancelledError
  | Raised e => raise e
  end.

(** [on_disconnect], from the [try] to the end. *)
Definition on_disconnect_leave (o : Outcome) : M unit :=
  try_except_cancelled (await_done o) (logger_debug "file watcher cancelled").

Definition on_receive (data : string) : M string := mret data.

(** ** The event loop *)

Inductive Action : Type :=
| Accept                             (* the framework calls on_accept *)
| AcceptResumed                      (* the ping's await completes *)
| WatchStart                         (* the loop enters the watch task *)
| WatchBatch (raw : list FileChange) (* the watcher wakes the task *)
| WatchSendResumed                   (* the reload's await completes *)
| WatchCancelled                     (* the loop delivers the cancellation *)
| Receive (data : string)            (* a client message arrives *)
| Disconnect                         (* the framework calls on_disconnect *)
| DisconnectResumed                  (* the awaited watch task is done *)
| ConnectionLost.                    (* the client goes away *)

(** A method ran a segment: it goes on to [next], or its exception ends
    the listener's part in the connection. *)
Definition handler_goes {A : Type} (r : Result A * Session) (next : Phase) : Session :=
  match r with
  | (Ok _, s') => set_phase next s'
  | (Err e, s') => set_phase (Closed (Raised e)) s'
  end.

(** The watch task ran a segment: it suspends in [next], or its exception
    ends the task. *)
Definition task_goes {A : Type} (r : Result A * Session) (next : TaskState) : Session :=
  match r with
  | (Ok _, s') => set_watch_task (Some next) s'
  | (Err e, s') => set_watch_task (Some (TDone (Raised e))) s'
  end.

(** [on_disconnect] from its call: awaiting a task that is done does not
    suspend. *)
Definition on_disconnect_call (s : Session) : Session :=
  match on_disconnect_enter s with
  | (Ok _, s') =>
      match watch_task s' with
      | Some (TDone o) => handler_goes (on_disconnect_leave o s') (Closed Returned)
      | _ => set_phase Closing s'
      end
  | (Err e, s') => set_phase (Closed (Raised e)) s'
  end.

(** A pending task on which [cancel] was called is resumed only to receive
    the cancellation, which neither [watch_reload] nor [prompt_reload]
    catches. *)
Definition step (a : Action) (s : Session) : option Session :=
  match a with
  | Accept =>
      match phase s with
      | Connecting => Some (handler_goes (on_accept (PyWebSocket (conn s)) s) Accepting)
      | _ => None
      end
  | AcceptResumed =>
      match phase s with
      | Accepting => Some (set_phase Active s)
      | _ => None
      end
  | WatchStart =>
      match watch_task s, must_cancel s with
      | Some TCreated, false => Some (task_goes (watch_reload_enter s) TAwaitBatch)
      | _, _ => None
      end
  | WatchBatch raw =>
      match watch_task s, must_cancel s with
      | Some TAwaitBatch, false =>
          match awatch_next (watch_paths cfg) filter_class raw with
          | Some b => Some (task_goes (watch_reload_body b s) TAwaitSend)
          | None => None
          end
      | _, _ => None
      end
  | WatchSendResumed =>
      match watch_task s, must_cancel s with
      | Some TAwaitSend, false => Some (set_watch_task (Some TAwaitBatch) s)
      | _, _ => None
      end
  | WatchCancelled =>
      match watch_task s, must_cancel s with
      | Some (TDone _), _ => None
      | Some _, true => Some (set_watch_task (Some (TDone Cancelled)) s)
      | _, _ => None
      end
  | Receive data =>
      match phase s, connected s with
      | Active, true =>
          match on_receive data s with
          | (Ok d, s') => Some (emit (EvSend (conn s') (PText d)) s')
          | (Err e, s') => Some (set_phase (Closed (Raised e)) s')
          end
      | _, _ => None
      end
  | Disconnect =>
      match phase s with
      | Active => Some (on_disconnect_call s)
      | _ => None
      end
  | DisconnectResumed =>
      match phase s, watch_task s with
      | Closing, Some (TDone o) =>
          Some (handler_goes (on_disconnect_leave o s) (Closed Returned))
      | _, _ => None
      end
  | ConnectionLost => Some (set_connected false s)
  end.

(** A schedule is the order in which the loop and the outside world act. *)
Fixpoint run (sched : list Action) (s : Session) : option Session :=
  match sched with
  | [] => Some s
  | a :: rest =>
      match step a s with
      | Some s' => run rest s'
      | None => None
      end
  end.

(** ** What an observer of the connection sees *)

(** The messages handed to connection [c], in order. *)
Fixpoint wire (c : nat) (tr : list Event) : list Payload :=
  match tr with
  | [] => []
  | EvSend c' p :: tr' =>
      if Nat.eqb c c' then p :: wire c tr' else wire c tr'
  | _ :: tr' => wire c tr'
  end.






(** The events a listener closed over [cfg] in a process with this
    [version_id] can add to its trace. *)
Inductive emittable : Event → Prop :=
| emittable_log msg : emittable (EvLog msg)
| emittable_create_task : emittable EvCreateTask
| emittable_awatch : emittable (EvAwatch (watch_paths cfg) filter_class)
| emittable_batch b : emittable (EvBatch b)
| emittable_ping c : emittable (EvSend c (PJson (ping_msg version_id)))
| emittable_reload c : emittable (EvSend c (PJson reload_msg))
| emittable_echo c data : emittable (EvSend c (PText data))
| emittable_cancel : emittable EvCancel.

(** The state of the listener's attributes and the head of its trace:
    nothing before [on_accept]; after its call the attributes are set, the
    trace opens with the log line and the task's creation, and the
    connection has carried either nothing at all, being lost, or the ping
    first and only once. *)
Definition accepted_shape (s : Session) : Prop :=
  match phase s with
  | Connecting =>
      trace s = [] ∧ ws s = None ∧ watch_task s = None ∧ must_cancel s = false
  | _ =>
      ws s = Some (PyWebSocket (conn s)) ∧ watch_task s ≠ None ∧
      ∃ rest,
        trace s = EvLog "reload websocket connecting" :: EvCreateTask :: rest ∧
        ((connected s = false ∧ wire (conn s) rest = []) ∨
         (∃ rest', rest = EvSend (conn s) (PJson (ping_msg version_id)) :: rest' ∧
                   PJson (ping_msg version_id) ∉ wire (conn s) rest'))
  end.

End Listener.

(** ** Counting what a run did *)

(** The strings among the payloads, in order. *)
Fixpoint texts (ps : list Payload) : list string :=
  match ps with
  | [] => []
  | PText d :: ps' => d :: texts ps'
  | PJson _ :: ps' => texts ps'
  end.

(** The client messages a schedule delivers, in order. *)
Fixpoint received (sched : list Action) : list string :=
  match sched with
  | [] => []
  | Receive d :: sched' => d :: received sched'
  | _ :: sched' => received sched'
  end.

Definition is_create_task (e : Event) : bool :=
  match e with
  | EvCreateTask => true
  | _ => false
  end.

Definition is_awatch (e : Event) : bool :=
  match e with
  | EvAwatch _ _ => true
  | _ => false
  end.

Definition is_cancel (e : Event) : bool :=
  match e with
  | EvCancel => true
  | _ => false
  end.

(** How many events of a kind a trace holds. *)
Definition calls (kind : Event → bool) (tr : list Event) : nat :=
  length (List.filter kind tr).
Arguments calls : simpl never.

(** ** The plugin *)

(** What the host's route table holds: the listener class returned by
    [reload_endpoint], with the closure it carries; the router returned by
    [create_static_files_router], with the arguments it was built from; and
    the host's own handlers. *)
Inductive RouteHandler : Type :=
| ReloadEndpoint (cfg : WatchConfiguration)
| StaticFilesRouter (directories : list Path) (path name : string)
    (opt : list (string * bool)) (include_in_schema : bool)
| HostHandler (path : string).

Definition reload_endpoint (watch_paths : list Path)
    (ignore_dirs ignore_entity_patterns : option (list string))
    (watch_filter : option WatchFilter) : RouteHandler :=
  ReloadEndpoint (mkConfig watch_paths ignore_dirs ignore_entity_patterns watch_filter).

Definition create_static_files_router (directories : list Path) (path name : string)
    (opt : list (string * bool)) (include_in_schema : bool) : RouteHandler :=
  StaticFilesRouter directories path name opt include_in_schema.

(** The class attribute [path] of the listener, and the paths of the others. *)
Definition handler_path (h : RouteHandler) : string :=
  match h with
  | ReloadEndpoint _ => "/__reload__"
  | StaticFilesRouter _ path _ _ _ => path
  | HostHandler path => path
  end.

Definition is_reload_endpoint (h : RouteHandler) : bool :=
  match h with
  | ReloadEndpoint _ => true
  | _ => false
  end.

Definition is_static_router (h : RouteHandler) : bool :=
  match h with
  | StaticFilesRouter _ _ _ _ _ => true
  | _ => false
  end.

Record AppConfig : Type := mkAppConfig {
  debug : bool;
  route_handlers : list RouteHandler
}.

Record BrowserReloadPlugin : Type := mkPlugin {
  self_watch_paths : list Path;
  self_ignore_dirs : option (list string);
  self_ignore_entity_patterns : option (list string);
  self_watch_filter : option WatchFilter
}.

(** [BrowserReloadPlugin.__init__]: four assignments. *)
Definition BrowserReloadPlugin_init (watch_paths : list Path)
    (ignore_dirs ignore_entity_patterns : option (list string))
    (watch_filter : option WatchFilter) : BrowserReloadPlugin :=
  {| self_watch_paths := watch_paths;
     self_ignore_dirs := ignore_dirs;
     self_ignore_entity_patterns := ignore_entity_patterns;
     self_watch_filter := watch_filter |}.

Definition append_route_handler (h : RouteHandler) (app_config : AppConfig) : AppConfig :=
  {| debug := debug app_config;
     route_handlers := route_handlers app_config ++ [h] |}.

Section Host.

Context (fs_exists : Path → bool).
Context (default_filter_call :
  option (list string) → option (list string) → Change → Path → bool).

(** [Path(__file__).parent]. *)
Context (package_dir : Path).

(** The process's source of UUIDs: what the n-th call of [uuid.uuid4]
    returns, as a string. *)
Context (uuid4 : nat → string).

Definition on_app_init (self : BrowserReloadPlugin) (app_config : AppConfig) : AppConfig :=
  if debug app_config then
    let app_config :=
      append_route_handler
        (reload_endpoint (self_watch_paths self) (self_ignore_dirs self)
           (self_ignore_entity_patterns self) (self_watch_filter self))
        app_config in
    let app_config :=
      append_route_handler
        (create_static_files_router [package_dir ++ ["static"]]
           "/__reload__/static" "browser_reload_static"
           [("exclude_from_auth", true)] false)
        app_config in
    app_config
  else app_config.

(** ** The process *)

Record Process : Type := mkProcess {
  version_id : string;            (* the module's global *)
  uuid_calls : nat;               (* calls of uuid.uuid4 so far *)
  app : AppConfig;
  sessions : gmap nat (WatchConfiguration * Session)
}.

(** Importing the module: [version_id = str(uuid.uuid4())]. *)
Definition module_load (calls : nat) : string * nat :=
  (uuid4 calls, S calls).

(** The host imports the module, then lets the plugin see its
    configuration. *)
Definition boot (plugin : BrowserReloadPlugin) (app_config : AppConfig) : Process :=
  let (v, calls) := module_load 0 in
  {| version_id := v; uuid_calls := calls;
     app := on_app_init plugin app_config; sessions := ∅ |}.

(** The closure of the listener a connection to the reload path reaches. *)
Fixpoint reload_route (hs : list RouteHandler) : option WatchConfiguration :=
  match hs with
  | [] => None
  | ReloadEndpoint cfg :: _ => Some cfg
  | _ :: hs' => reload_route hs'
  end.

Definition set_sessions (m : gmap nat (WatchConfiguration * Session)) (P : Process) : Process :=
  {| version_id := version_id P; uuid_calls := uuid_calls P;
     app := app P; sessions := m |}.

Inductive HostAction : Type :=
| Connect (c : nat)                (* a client opens connection c *)
| Deliver (c : nat) (a : Action).  (* the loop acts on connection c *)

(** Modelled from the spec: the host framework, which is not part of this
    repository.  It routes a new connection to the reload endpoint when the
    route table has one, and each connection is served by a session of its
    own; a session reads the module's [version_id] when it runs. *)
Definition host_step (a : HostAction) (P : Process) : option Process :=
  match a with
  | Connect c =>
      match sessions P !! c, reload_route (route_handlers (app P)) with
      | None, Some cfg => Some (set_sessions (<[c := (cfg, init_session c)]> (sessions P)) P)
      | _, _ => None
      end
  | Deliver c a =>
      match sessions P !! c with
      | Some (cfg, s) =>
          match step fs_exists default_filter_call cfg (version_id P) a s with
          | Some s' => Some (set_sessions (<[c := (cfg, s')]> (sessions P)) P)
          | None => None
          end
      | None => None
      end
  end.

Fixpoint host_run (sched : list HostAction) (P : Process) : option Process :=
  match sched with
  | [] => Some P
  | a :: rest =>
      match host_step a P with
      | Some P' => host_run rest P'
      | None => None
      end
  end.

End Host.

(** * Properties *)

(** ** Runs of the model, as the source would trace them *)

Definition demo_cfg : WatchConfiguration :=
  mkConfig [["src"]] None None None.

Definition demo_run (sched : list Action) : option Session :=
  run (λ _, true) (λ _ _ _ _, true) demo_cfg "v1" sched (init_session 7).

(** A whole life of a connection: one batch, one client message. *)
Definition demo_life : list Action :=
  [Accept; WatchStart; AcceptResumed;
   WatchBatch [(Modified, ["src"; "a.py"]); (Added, ["docs"; "x"])];
   WatchSendResumed; Receive "hi";
   Disconnect; WatchCancelled; DisconnectResumed].

Definition demo_end : Session :=
  {| conn := 7; ws := Some (PyWebSocket 7);
     watch_task := Some (TDone Cancelled); must_cancel := true;
     phase := Closed Returned; connected := true;
     trace :=
       [EvLog "reload websocket connecting"; EvCreateTask;
        EvSend 7 (PJson [("type", "ping"); ("versionId", "v1")]);
        EvAwatch [["src"]] (DefaultFilter None None);
        EvBatch [(Modified, ["src"; "a.py"])];
        EvLog "prompting reload";
        EvSend 7 (PJson [("type", "reload")]);
        EvSend 7 (PText "hi");
        EvLog "reload websocket disconnecting"; EvCancel;
        EvLog "file watcher cancelled"] |}.

(** The client is gone when [on_accept] runs; the loop then enters the task
    [on_accept] had created. *)
Definition demo_lost : list Action := [ConnectionLost; Accept; WatchStart].

Definition demo_lost_end : Session :=
  {| conn := 7; ws := Some (PyWebSocket 7);
     watch_task := Some TAwaitBatch; must_cancel := false;
     phase := Closed (Raised WebSocketDisconnect); connected := false;
     trace :=
       [EvLog "reload websocket connecting"; EvCreateTask;
        EvAwatch [["src"]] (DefaultFilter None None)] |}.

(** The loop enters the watch task while [on_accept] still awaits its send. *)
Definition demo_early_end : Session :=
  {| conn := 7; ws := Some (PyWebSocket 7);
     watch_task := Some TAwaitBatch; must_cancel := false;
     phase := Accepting; connected := true;
     trace :=
       [EvLog "reload websocket connecting"; EvCreateTask;
        EvSend 7 (PJson [("type", "ping"); ("versionId", "v1")]);
        EvAwatch [["src"]] (DefaultFilter None None)] |}.

(** [prompt_reload] called in that state. *)
Definition demo_prompted : Session :=
  emit (EvSend 7 (PJson reload_msg)) (emit (EvLog "prompting reload") demo_early_end).

(** The same listener on a filesystem where the watched root is missing:
    the watch task ends with the watcher's exception. *)
Definition demo_missing_run (sched : list Action) (s : Session) : option Session :=
  run (λ _, false) (λ _ _ _ _, true) demo_cfg "v1" sched s.

Definition demo_missing_mid : Session :=
  {| conn := 7; ws := Some (PyWebSocket 7);
     watch_task := Some (TDone (Raised FileNotFoundError)); must_cancel := false;
     phase := Active; connected := true;
     trace :=
       [EvLog "reload websocket connecting"; EvCreateTask;
        EvSend 7 (PJson [("type", "ping"); ("versionId", "v1")]);
        EvAwatch [["src"]] (DefaultFilter None None)] |}.

Definition demo_missing_end : Session :=
  {| conn := 7; ws := Some (PyWebSocket 7);
     watch_task := Some (TDone (Raised FileNotFoundError)); must_cancel := false;
     phase := Closed (Raised FileNotFoundError); connected := true;
     trace :=
       [EvLog "reload websocket connecting"; EvCreateTask;
        EvSend 7 (PJson [("type", "ping"); ("versionId", "v1")]);
        EvAwatch [["src"]] (DefaultFilter None None);
        EvLog "reload websocket disconnecting"] |}.




(** A process: two clients connect to an application in debug mode. *)
Definition demo_uuid4 (n : nat) : string :=
  match n with
  | 0 => "8c1e"
  | _ => "f00d"
  end.

Definition demo_plugin : BrowserReloadPlugin :=
  BrowserReloadPlugin_init [["src"]] (Some ["node_modules"]) None None.

Definition demo_app : AppConfig := mkAppConfig true [HostHandler "/"].

Definition demo_app_off : AppConfig := mkAppConfig false [HostHandler "/"].

Definition demo_host_run (app_config : AppConfig) (sched : list HostAction) : option Process :=
  host_run (λ _, true) (λ _ _ _ _, true) sched
    (boot ["pkg"] demo_uuid4 demo_plugin app_config).

Definition demo_clients : list HostAction :=
  [Connect 1; Connect 2; Deliver 1 Accept; Deliver 2 Accept].

Definition demo_accepted (c : nat) : Session :=
  {| conn := c; ws := Some (PyWebSocket c);
     watch_task := Some TCreated; must_cancel := false;
     phase := Accepting; connected := true;
     trace :=
       [EvLog "reload websocket connecting"; EvCreateTask;
        EvSend c (PJson [("type", "ping"); ("versionId", "8c1e")])] |}.

Definition demo_process : Process :=
  {| version_id := "8c1e"; uuid_calls := 1;
     app := on_app_init ["pkg"] demo_plugin demo_app;
     sessions :=
       <[2 := (mkConfig [["src"]] (Some ["node_modules"]) None None, demo_accepted 2)]>
         (<[1 := (mkConfig [["src"]] (Some ["node_modules"]) None None, demo_accepted 1)]> ∅) |}.

Example demo_full_life : demo_run demo_life = Some demo_end.
Proof. reflexivity. Qed.

Example demo_no_batch_outside_roots :
  demo_run [Accept; WatchStart; WatchBatch [(Added, ["docs"; "x"])]] = None.
Proof. reflexivity. Qed.

Example demo_step_after_cancel :
  demo_run [Accept; WatchStart; AcceptResumed; Disconnect;
            WatchBatch [(Modified, ["src"; "a.py"])]] = None.
Proof. reflexivity. Qed.

Example demo_two_clients : demo_host_run demo_app demo_clients = Some demo_process.
Proof. vm_compute. reflexivity. Qed.

(** ** Traces *)

Lemma wire_app c tr1 tr2 : wire c (tr1 ++ tr2) = wire c tr1 ++ wire c tr2.
Proof.
  induction tr1 as [|e tr1 IH]; [done|].
  destruct e; simpl; try done.
  destruct (Nat.eqb c conn0); simpl; by rewrite IH.
Qed.




Section ListenerFacts.

Context (fs_exists : Path → bool).
Context (default_filter_call :
  option (list string) → option (list string) → Change → Path → bool).
Context (cfg : WatchConfiguration) (version_id : string).

Abbreviation step := (step fs_exists default_filter_call cfg version_id).
Abbreviation run := (run fs_exists default_filter_call cfg version_id).
Abbreviation accepted_shape := (accepted_shape version_id).

(** A property kept by every step holds along every schedule. *)
Lemma run_invariant (P : Session → Prop) :
  (∀ a s s', P s → step a s = Some s' → P s') →
  ∀ sched s s', P s → run sched s = Some s' → P s'.
Proof.
  intros Hstep sched.
  induction sched as [|a sched IH]; intros s s' HP Hrun; simpl in Hrun.
  - by simplify_eq.
  - destruct (step a s) as [s1|] eqn:Ha; [|done].
    eapply IH; [|done]. by eapply Hstep.
Qed.

Lemma run_app sched1 sched2 s :
  run (sched1 ++ sched2) s = run sched1 s ≫= run sched2.
Proof.
  revert s. induction sched1 as [|a sched1 IH]; intros s; simpl; [done|].
  destruct (step a s); simpl; [apply IH|done].
Qed.

(** *** The segments in closed form *)

Lemma on_accept_eq c s :
  on_accept version_id (PyWebSocket c) s =
    let s1 := set_ws (Some (PyWebSocket c))
                (set_watch_task (Some TCreated)
                   (emit EvCreateTask
                      (emit (EvLog "reload websocket connecting") s))) in
    if connected s
    then (Ok tt, emit (EvSend c (PJson (ping_msg version_id))) s1)
    else (Err WebSocketDisconnect, s1).
Proof. destruct s as [? ? ? ? ? [] ?]; reflexivity. Qed.

Lemma prompt_reload_eq s :
  prompt_reload s =
    match ws s with
    | None => (Err (AttributeError "ws"), s)
    | Some PyNone => (Ok tt, s)
    | Some (PyWebSocket c) =>
        let s1 := emit (EvLog "prompting reload") s in
        if connected s
        then (Ok tt, emit (EvSend c (PJson reload_msg)) s1)
        else (Err WebSocketDisconnect, s1)
    end.
Proof. destruct s as [? [[|?]|] ? ? ? [] ?]; reflexivity. Qed.

Lemma watch_reload_enter_eq s :
  watch_reload_enter fs_exists cfg s =
    let s1 := emit (EvAwatch (watch_paths cfg) (filter_class cfg)) s in
    if forallb fs_exists (watch_paths cfg)
    then (Ok tt, s1)
    else (Err FileNotFoundError, s1).
Proof.
  unfold watch_reload_enter, awatch_open; simpl.
  unfold mbind, M_bind, modify.
  by destruct (forallb fs_exists (watch_paths cfg)).
Qed.

Lemma watch_reload_body_eq b s :
  watch_reload_body b s = prompt_reload (emit (EvBatch b) s).
Proof. reflexivity. Qed.

Lemma on_disconnect_leave_eq o s :
  on_disconnect_leave o s =
    match o with
    | Returned => (Ok tt, s)
    | Cancelled | Raised CancelledError =>
        (Ok tt, emit (EvLog "file watcher cancelled") s)
    | Raised e => (Err e, s)
    end.
Proof. destruct o as [| |[]]; reflexivity. Qed.

Lemma on_disconnect_call_eq s :
  on_disconnect_call s =
    let s1 := emit (EvLog "reload websocket disconnecting") s in
    match watch_task s with
    | None => set_phase (Closed (Raised (AttributeError "_watch_task"))) s1
    | Some (TDone o) => handler_goes (on_disconnect_leave o s1) (Closed Returned)
    | Some _ => set_phase Closing (set_must_cancel true (emit EvCancel s1))
    end.
Proof. destruct s as [? ? [[]|] ? ? ? ?]; reflexivity. Qed.

Lemma on_receive_eq data s : on_receive data s = (Ok data, s).
Proof. reflexivity. Qed.

Ltac segments :=
  rewrite ?on_accept_eq, ?watch_reload_body_eq, ?watch_reload_enter_eq,
    ?prompt_reload_eq, ?on_disconnect_call_eq, ?on_disconnect_leave_eq,
    ?on_receive_eq in *;
  cbn in *.

(** Case analysis on an enabled step [H : step a s = Some s']. *)
Ltac step_cases a s H :=
  destruct s as [c w t mc ph cn tr]; destruct a; cbn in H;
  repeat (segments; first [progress simplify_eq | case_match]).

Lemma step_conn a s s' : step a s = Some s' → conn s' = conn s.
Proof. intros H. step_cases a s H; done. Qed.


Lemma accepted_shape_init c : accepted_shape (init_session c).
Proof. done. Qed.

Lemma accepted_shape_step a s s' :
  accepted_shape s → step a s = Some s' → accepted_shape s'.
Proof.
  intros Hs H. unfold accepted_shape in *.
  destruct (phase s) eqn:Hph.
  { destruct Hs as (Htr & Hw & Ht & Hmc).
    step_cases a s H; cbn in *; simplify_eq; try done.
    - split_and!; [done..|]. eexists; split; [done|]. right.
      eexists; split; [done|]. cbn. apply not_elem_of_nil.
    - split_and!; [done..|]. eexists; split; [done|]. by left. }
  all: destruct Hs as (Hw & Ht & rest & Htr & Hsh).
  all: step_cases a s H; cbn in *; simplify_eq.
  all: try (split_and!; [done..|]).
  all: eexists; (split; [reflexivity|]).
  all: destruct Hsh as [[Hc Hwire]|(rest' & -> & Hnot)]; simplify_eq.
  all: try (left; rewrite ?wire_app, ?Hwire; done).
  all: right; eexists; (split; [reflexivity|]).
  all: rewrite ?wire_app, ?not_elem_of_app; cbn; rewrite ?Nat.eqb_refl.
  all: split_and?; try done; try apply not_elem_of_nil.
  all: unfold ping_msg, reload_msg.
  all: by intros [=]%list_elem_of_singleton.
Qed.

(** Every state a schedule reaches from a fresh listener has the shape. *)
Lemma reachable_shape c sched s :
  run sched (init_session c) = Some s → accepted_shape s ∧ conn s = c.
Proof.
  intros Hrun.
  eapply (run_invariant (λ s, accepted_shape s ∧ conn s = c)); [| |done].
  - intros a s1 s2 [Hs Hc] Hstep. split.
    + by eapply accepted_shape_step.
    + by rewrite (step_conn _ _ _ Hstep).
  - split; [apply accepted_shape_init|done].
Qed.

(** *** Every event on a trace is one the listener can emit *)

Lemma emittable_step a s s' :
  Forall (emittable cfg version_id) (trace s) → step a s = Some s' →
  Forall (emittable cfg version_id) (trace s').
Proof.
  intros Hs H. step_cases a s H; cbn in *; simplify_eq; try done.
  all: rewrite ?Forall_app, ?Forall_singleton; split_and?; try done.
  all: constructor.
Qed.

Lemma reachable_emittable c sched s :
  run sched (init_session c) = Some s →
  Forall (emittable cfg version_id) (trace s).
Proof.
  intros Hrun.
  apply (run_invariant (λ s, Forall (emittable cfg version_id) (trace s))
           emittable_step sched (init_session c) s); [by constructor|done].
Qed.

(** *** Batches and reload messages *)

Lemma shape_ws s t :
  accepted_shape s → watch_task s = Some t → ws s = Some (PyWebSocket (conn s)).
Proof. unfold accepted_shape. destruct (phase s); naive_solver. Qed.



(** *** What the connection has carried *)

Lemma wire_elem c tr p : p ∈ wire c tr → EvSend c p ∈ tr.
Proof.
  induction tr as [|e tr IH]; simpl; [by intros ?%not_elem_of_nil|].
  destruct e; try (intros H; apply elem_of_cons; right; by apply IH).
  destruct (Nat.eqb_spec c conn0) as [->|Hne].
  - intros [->|H]%elem_of_cons; [by left|]. right. by apply IH.
  - intros H. right. by apply IH.
Qed.

Lemma reachable_wire c sched s :
  run sched (init_session c) = Some s →
  wire c (trace s) = [] ∨
  ∃ rest, wire c (trace s) = PJson (ping_msg version_id) :: rest ∧
          PJson (ping_msg version_id) ∉ rest.
Proof.
  intros [Hsh <-]%reachable_shape. unfold accepted_shape in Hsh.
  destruct (phase s).
  { left. by destruct Hsh as (-> & _). }
  all: destruct Hsh as (_ & _ & rest & -> & [[_ Hw]|(rest' & -> & Hnot)]); cbn.
  all: rewrite ?Nat.eqb_refl; eauto.
Qed.

(** C1. On every connection and under every schedule of the event loop, the
    first message handed to the connection is the ping carrying the version
    stamp; a reload message is never at the head of the wire and always has
    the ping before it; and the ping is on the wire at most once. *)
Theorem ping_precedes_every_reload c sched s :
  run sched (init_session c) = Some s →
  (∀ p, head (wire c (trace s)) = Some p → p = PJson (ping_msg version_id)) ∧
  (∀ i, wire c (trace s) !! i = Some (PJson reload_msg) →
        0 < i ∧ wire c (trace s) !! 0 = Some (PJson (ping_msg version_id))) ∧
  (∀ i, wire c (trace s) !! i = Some (PJson (ping_msg version_id)) → i = 0).
Proof.
  intros [Hw|(rest & Hw & Hnot)]%reachable_wire; rewrite Hw.
  { split_and!; [done|intros i|intros i]; by rewrite lookup_nil. }
  split_and!.
  - cbn. by intros p [= <-].
  - intros [|i]; cbn; [done|]. intros _. split; [lia|done].
  - intros [|i]; cbn; [done|]. by intros Hi%list_elem_of_lookup_2.
Qed.

(** *** A ping that could not be sent *)

Lemma failed_ping_step a s s' :
  ((phase s = Connecting ∧ must_cancel s = false) ∨
   PJson (ping_msg version_id) ∈ wire (conn s) (trace s) ∨
   (phase s = Closed (Raised WebSocketDisconnect) ∧
    must_cancel s = false ∧ connected s = false)) →
  step a s = Some s' →
  ((phase s' = Connecting ∧ must_cancel s' = false) ∨
   PJson (ping_msg version_id) ∈ wire (conn s') (trace s') ∨
   (phase s' = Closed (Raised WebSocketDisconnect) ∧
    must_cancel s' = false ∧ connected s' = false)).
Proof.
  intros Hs H. step_cases a s H; cbn in *.
  all: rewrite ?wire_app; cbn; rewrite ?Nat.eqb_refl.
  all: rewrite ?elem_of_app, ?list_elem_of_singleton.
  all: naive_solver.
Qed.

Lemma reachable_failed_ping c sched s :
  run sched (init_session c) = Some s →
  (phase s = Connecting ∧ must_cancel s = false) ∨
  PJson (ping_msg version_id) ∈ wire (conn s) (trace s) ∨
  (phase s = Closed (Raised WebSocketDisconnect) ∧
   must_cancel s = false ∧ connected s = false).
Proof.
  intros Hrun.
  apply (run_invariant _ failed_ping_step sched (init_session c) s);
    [by left|done].
Qed.

(** C2, as the code has it. [on_accept] creates the watch task before it
    sends the ping: once [on_accept] was called the task exists and the
    trace opens with the log line and the task's creation, so every send
    comes after it.  When the ping could not be sent the listener ends with
    the transport's exception, and nothing has called [cancel] on the task
    it created. *)
Theorem watch_task_created_before_ping c sched s :
  run sched (init_session c) = Some s → phase s ≠ Connecting →
  watch_task s ≠ None ∧
  (∃ rest, trace s = EvLog "reload websocket connecting" :: EvCreateTask :: rest) ∧
  (PJson (ping_msg version_id) ∉ wire c (trace s) →
     phase s = Closed (Raised WebSocketDisconnect) ∧
     connected s = false ∧ must_cancel s = false).
Proof.
  intros Hrun Hph.
  destruct (reachable_shape _ _ _ Hrun) as [Hsh Hc].
  pose proof (reachable_failed_ping _ _ _ Hrun) as Hp. rewrite Hc in Hp.
  unfold accepted_shape in Hsh.
  destruct (phase s) eqn:E; [done|..].
  all: destruct Hsh as (_ & Ht & rest & Htr & _).
  all: split_and!; [done|by eexists|]; intros Hnot.
  all: destruct Hp as [[? ?]|[?|(? & ? & ?)]]; done.
Qed.

(** *** Teardown *)

(** C3, as the code has it. [on_disconnect] catches the cancellation and
    nothing else.  With the watch task pending, the teardown cancels it,
    awaits it, logs the cancellation at debug level and returns.  With the
    watch task already ended by an exception which is not a cancellation,
    the [await] raises that exception again and it leaves [on_disconnect];
    the only line logged is the one of the method's entry. *)
Theorem teardown_catches_only_cancellation s t :
  phase s = Active → watch_task s = Some t →
  match t with
  | TDone Returned =>
      run [Disconnect] s =
        Some (set_phase (Closed Returned)
                (emit (EvLog "reload websocket disconnecting") s))
  | TDone Cancelled =>
      run [Disconnect] s =
        Some (set_phase (Closed Returned)
                (emit (EvLog "file watcher cancelled")
                   (emit (EvLog "reload websocket disconnecting") s)))
  | TDone (Raised e) =>
      e ≠ CancelledError →
      run [Disconnect] s =
        Some (set_phase (Closed (Raised e))
                (emit (EvLog "reload websocket disconnecting") s))
  | _ =>
      run [Disconnect; WatchCancelled; DisconnectResumed] s =
        Some (set_phase (Closed Returned)
                (emit (EvLog "file watcher cancelled")
                   (set_watch_task (Some (TDone Cancelled))
                      (set_phase Closing
                         (set_must_cancel true
                            (emit EvCancel
                               (emit (EvLog "reload websocket disconnecting") s)))))))
  end.
Proof.
  intros Hph Ht. destruct s as [c w t' mc ph cn tr]; cbn in *; subst.
  destruct t as [| | |[| |e]]; try reflexivity.
  intros He. by destruct e.
Qed.

(** *** The filter handed to the watcher *)



(** C8. [on_receive] returns its argument and leaves the listener as it was;
    a message received while the session is active and connected has that
    one effect: the same string goes back to the client. *)
Theorem on_receive_identity data s :
  on_receive data s = (Ok data, s) ∧
  step (Receive data) s =
    match phase s, connected s with
    | Active, true => Some (emit (EvSend (conn s) (PText data)) s)
    | _, _ => None
    end.
Proof. split; [done|]. by destruct s as [? ? ? ? [] [] ?]. Qed.

(** C10. [prompt_reload] hands a reload message to a connection only when
    [self.ws] is assigned and truthy.  When the attribute was never
    assigned the call raises before sending and the listener is unchanged;
    when it holds a falsy value the call returns and the listener is
    unchanged; and in no case does the call send anything but one reload
    message to the socket held in [self.ws]. *)
Theorem prompt_reload_guard s r s' :
  prompt_reload s = (r, s') →
  (ws s = None → r = Err (AttributeError "ws") ∧ s' = s) ∧
  (∀ w, ws s = Some w → truthy w = false → r = Ok tt ∧ s' = s) ∧
  (∀ c p, EvSend c p ∈ trace s' → EvSend c p ∉ trace s →
     p = PJson reload_msg ∧ ws s = Some (PyWebSocket c) ∧
     truthy (PyWebSocket c) = true ∧ connected s = true ∧
     trace s' = trace s ++ [EvLog "prompting reload"; EvSend c p]).
Proof.
  rewrite prompt_reload_eq. intros H.
  destruct s as [c w t mc ph cn tr]; cbn in *.
  destruct w as [[|c']|]; [| destruct cn |]; cbn in *; simplify_eq.
  all: split_and!; try done.
  all: intros c0 p; cbn; rewrite <- ?app_assoc; cbn.
  all: rewrite ?elem_of_app, ?elem_of_cons, ?elem_of_nil; naive_solver.
Qed.

(** *** Nothing to watch *)






(** *** The echo *)

Lemma texts_app ps1 ps2 : texts (ps1 ++ ps2) = texts ps1 ++ texts ps2.
Proof.
  induction ps1 as [|[j|d] ps1 IH]; simpl; by rewrite ?IH.
Qed.

Lemma texts_wire_json c c' j : texts (wire c [EvSend c' (PJson j)]) = [].
Proof. cbn. by destruct (Nat.eqb c c'). Qed.

Lemma echo_step a s s' :
  step a s = Some s' →
  texts (wire (conn s) (trace s')) =
    texts (wire (conn s) (trace s)) ++ received [a].
Proof.
  intros H. step_cases a s H; cbn in *; simplify_eq.
  all: rewrite ?wire_app, ?texts_app, ?texts_wire_json; cbn.
  all: rewrite ?Nat.eqb_refl, ?app_nil_r; done.
Qed.

Lemma echo_run sched s s' :
  run sched s = Some s' →
  texts (wire (conn s) (trace s')) =
    texts (wire (conn s) (trace s)) ++ received sched.
Proof.
  revert s. induction sched as [|a sched IH]; intros s Hrun; simpl in Hrun.
  - simplify_eq. by rewrite app_nil_r.
  - destruct (step a s) as [s1|] eqn:Ha; [|done].
    apply IH in Hrun. rewrite (step_conn _ _ _ Ha) in Hrun.
    rewrite Hrun, (echo_step _ _ _ Ha), <- app_assoc. f_equal.
    by destruct a.
Qed.

(** The strings a connection gets back are the strings its client sent, each
    once and in the order they arrived, whatever the watch task does in
    between. *)
Theorem echo_in_order c sched s :
  run sched (init_session c) = Some s →
  texts (wire c (trace s)) = received sched.
Proof. intros Hrun. apply echo_run in Hrun. by cbn in Hrun. Qed.

(** *** The socket of a listener *)

Lemma own_socket_step a s s' :
  accepted_shape s →
  (∀ c p, EvSend c p ∈ trace s → c = conn s) →
  step a s = Some s' →
  (∀ c p, EvSend c p ∈ trace s' → c = conn s').
Proof.
  intros Hsh Hs H.
  pose proof (λ t, shape_ws s t Hsh) as Hws. clear Hsh.
  step_cases a s H; cbn in *; simplify_eq; try done.
  all: try (specialize (Hws _ eq_refl); simplify_eq).
  all: intros c0 p0; rewrite ?elem_of_app, ?elem_of_cons, ?elem_of_nil.
  all: naive_solver.
Qed.

(** Every message a listener sends, ping, reload or echo, goes to the socket
    its [on_accept] was called with. *)
Theorem sends_on_own_socket c sched s i c' p :
  run sched (init_session c) = Some s →
  trace s !! i = Some (EvSend c' p) → c' = c.
Proof.
  intros Hrun Hin%list_elem_of_lookup_2.
  assert (accepted_shape s ∧ conn s = c ∧
          ∀ c p, EvSend c p ∈ trace s → c = conn s) as (_ & <- & Hs).
  { apply (run_invariant
      (λ s, accepted_shape s ∧ conn s = c ∧
            ∀ c p, EvSend c p ∈ trace s → c = conn s))
      with (sched := sched) (s := init_session c); [| |done].
    - intros a s1 s2 (Hsh & Hc & Hs) Hstep. split_and!.
      + by eapply accepted_shape_step.
      + by rewrite (step_conn _ _ _ Hstep).
      + by eapply own_socket_step.
    - split_and!; [apply accepted_shape_init|done|].
      intros c0 p0 Hx. by apply not_elem_of_nil in Hx. }
  by eapply Hs.
Qed.

(** *** After the teardown has begun *)

Lemma silent_step a s s' :
  (phase s = Closing ∨ ∃ o, phase s = Closed o) →
  (connected s = false ∨ must_cancel s = true ∨ watch_task s = None ∨
   ∃ o, watch_task s = Some (TDone o)) →
  step a s = Some s' →
  (phase s' = Closing ∨ ∃ o, phase s' = Closed o) ∧
  (connected s' = false ∨ must_cancel s' = true ∨ watch_task s' = None ∨
   ∃ o, watch_task s' = Some (TDone o)) ∧
  ∀ c, wire c (trace s') = wire c (trace s).
Proof.
  intros Hph Hq H.
  step_cases a s H; cbn in *; simplify_eq.
  all: try (destruct Hph as [?|[? ?]]; done).
  all: try (destruct Hq as [?|[?|[?|[? ?]]]]; done).
  all: split_and!; eauto 6.
  all: try (intros c0; rewrite ?wire_app; cbn; by rewrite ?app_nil_r).
  all: naive_solver.
Qed.

Lemma teardown_silent_step a s s' :
  ((phase s = Closing ∨ ∃ o, phase s = Closed o) →
   connected s = false ∨ must_cancel s = true ∨ watch_task s = None ∨
   ∃ o, watch_task s = Some (TDone o)) →
  step a s = Some s' →
  ((phase s' = Closing ∨ ∃ o, phase s' = Closed o) →
   connected s' = false ∨ must_cancel s' = true ∨ watch_task s' = None ∨
   ∃ o, watch_task s' = Some (TDone o)).
Proof.
  intros Hq H Hph'.
  assert ((phase s = Closing ∨ ∃ o, phase s = Closed o) ∨
          (phase s = Connecting ∨ phase s = Accepting ∨ phase s = Active))
    as [Hph|Hph] by (destruct (phase s); eauto).
  { by destruct (silent_step _ _ _ Hph (Hq Hph) H) as (_ & ? & _). }
  clear Hq.
  step_cases a s H; cbn in *; simplify_eq; eauto 6.
  all: naive_solver.
Qed.

Lemma silent_run sched s s' :
  (phase s = Closing ∨ ∃ o, phase s = Closed o) →
  (connected s = false ∨ must_cancel s = true ∨ watch_task s = None ∨
   ∃ o, watch_task s = Some (TDone o)) →
  run sched s = Some s' →
  (phase s' = Closing ∨ ∃ o, phase s' = Closed o) ∧
  ∀ c, wire c (trace s') = wire c (trace s).
Proof.
  revert s. induction sched as [|a sched IH]; intros s Hph Hq Hrun; simpl in Hrun.
  - by simplify_eq.
  - destruct (step a s) as [s1|] eqn:Ha; [|done].
    destruct (silent_step _ _ _ Hph Hq Ha) as (Hph1 & Hq1 & Hw1).
    destruct (IH _ Hph1 Hq1 Hrun) as [Hph' Hw']. split; [done|].
    intros c. by rewrite Hw', Hw1.
Qed.

(** Once [on_disconnect] has been called, or the listener has ended in any
    other way, the session stays in teardown or closed and no connection
    gets a further message from it: a change of the watched files after the
    disconnect produces no reload, and the task's cancellation sends
    nothing. *)
Theorem nothing_sent_after_teardown c sched1 sched2 s1 s2 :
  run sched1 (init_session c) = Some s1 →
  (phase s1 = Closing ∨ ∃ o, phase s1 = Closed o) →
  run sched2 s1 = Some s2 →
  (phase s2 = Closing ∨ ∃ o, phase s2 = Closed o) ∧
  ∀ c', wire c' (trace s2) = wire c' (trace s1).
Proof.
  intros Hrun1 Hph Hrun2.
  eapply silent_run; [done| |done].
  apply (run_invariant
    (λ s, (phase s = Closing ∨ ∃ o, phase s = Closed o) →
          connected s = false ∨ must_cancel s = true ∨ watch_task s = None ∨
          ∃ o, watch_task s = Some (TDone o))
    teardown_silent_step sched1 (init_session c) s1); [|done..].
  cbn. intros [?|[? ?]]; done.
Qed.

(** *** One task, one watcher, one cancellation *)

Lemma calls_app kind tr1 tr2 :
  calls kind (tr1 ++ tr2) = calls kind tr1 + calls kind tr2.
Proof. unfold calls. by rewrite List.filter_app, length_app. Qed.

Lemma calls_singleton kind e : calls kind [e] = if kind e then 1 else 0.
Proof. unfold calls. cbn. by destruct (kind e). Qed.

Lemma once_step a s s' :
  calls is_create_task (trace s) = match phase s with Connecting => 0 | _ => 1 end ∧
  match watch_task s with
  | None | Some TCreated => calls is_awatch (trace s) = 0
  | Some (TDone _) => (calls is_awatch (trace s) ≤ 1)%nat
  | _ => calls is_awatch (trace s) = 1
  end ∧
  calls is_cancel (trace s) = (if must_cancel s then 1 else 0) ∧
  (phase s = Connecting → watch_task s = None ∧ must_cancel s = false) ∧
  (must_cancel s = true → phase s = Closing ∨ ∃ o, phase s = Closed o) →
  step a s = Some s' →
  calls is_create_task (trace s') = match phase s' with Connecting => 0 | _ => 1 end ∧
  match watch_task s' with
  | None | Some TCreated => calls is_awatch (trace s') = 0
  | Some (TDone _) => (calls is_awatch (trace s') ≤ 1)%nat
  | _ => calls is_awatch (trace s') = 1
  end ∧
  calls is_cancel (trace s') = (if must_cancel s' then 1 else 0) ∧
  (phase s' = Connecting → watch_task s' = None ∧ must_cancel s' = false) ∧
  (must_cancel s' = true → phase s' = Closing ∨ ∃ o, phase s' = Closed o).
Proof.
  intros (Hc & Ha & Hx & Hn & Hm) H.
  step_cases a s H; cbn in *; simplify_eq.
  all: rewrite ?calls_app, ?calls_singleton, ?Hc, ?Ha, ?Hx; cbn.
  all: try (destruct Hn as [? ?]; [done|]; simplify_eq; cbn in * ).
  all: try (destruct Hm as [?|[? ?]]; [done|..]; simplify_eq).
  all: rewrite ?Hc, ?Ha, ?Hx; cbn.
  all: split_and!; try done; try lia; eauto.
Qed.

(** A listener creates its watch task exactly once, in [on_accept]; the task
    opens the watcher at most once; and [cancel] is called on the task at
    most once, by the teardown, after which the session is never active
    again. *)
Theorem one_task_one_watcher c sched s :
  run sched (init_session c) = Some s →
  calls is_create_task (trace s) = match phase s with Connecting => 0 | _ => 1 end ∧
  (calls is_awatch (trace s) ≤ 1)%nat ∧
  calls is_cancel (trace s) = (if must_cancel s then 1 else 0) ∧
  (must_cancel s = true → phase s = Closing ∨ ∃ o, phase s = Closed o).
Proof.
  intros Hrun.
  pose proof (run_invariant _ once_step sched (init_session c) s) as Hinv.
  destruct Hinv as (Hc & Ha & Hx & _ & Hm); [by split_and!|done|].
  split_and!; try done.
  destruct (watch_task s) as [[| | |o]|]; lia.
Qed.

(** *** The exceptions a session can end with *)

Lemma raised_step a s s' :
  accepted_shape s →
  (∀ e, watch_task s = Some (TDone (Raised e)) →
     (e = WebSocketDisconnect ∧ connected s = false) ∨
     (e = FileNotFoundError ∧ forallb fs_exists (watch_paths cfg) = false)) ∧
  (∀ e, phase s = Closed (Raised e) →
     (e = WebSocketDisconnect ∧ connected s = false) ∨
     watch_task s = Some (TDone (Raised e))) →
  step a s = Some s' →
  (∀ e, watch_task s' = Some (TDone (Raised e)) →
     (e = WebSocketDisconnect ∧ connected s' = false) ∨
     (e = FileNotFoundError ∧ forallb fs_exists (watch_paths cfg) = false)) ∧
  (∀ e, phase s' = Closed (Raised e) →
     (e = WebSocketDisconnect ∧ connected s' = false) ∨
     watch_task s' = Some (TDone (Raised e))).
Proof.
  intros Hsh [Ht Hp] H.
  pose proof (λ t, shape_ws s t Hsh) as Hws.
  assert (phase s ≠ Connecting → watch_task s ≠ None) as Hsome.
  { unfold accepted_shape in Hsh. destruct (phase s); naive_solver. }
  clear Hsh.
  step_cases a s H; cbn in *; simplify_eq.
  all: try (specialize (Hws _ eq_refl); simplify_eq).
  all: try (by destruct Hsome).
  all: split; intros e He; simplify_eq; eauto.
  all: try (destruct (Ht _ eq_refl) as [[? ?]|[? ?]]; simplify_eq; by eauto).
  all: try (destruct (Hp _ eq_refl) as [[? ?]|?]; simplify_eq; by eauto).
  all: try (destruct (Ht _ He) as [[? ?]|[? ?]]; simplify_eq; by eauto).
Qed.

End ListenerFacts.

(** ** The plugin and the process *)

Section HostFacts.

Context (fs_exists : Path → bool).
Context (default_filter_call :
  option (list string) → option (list string) → Change → Path → bool).
Context (package_dir : Path) (uuid4 : nat → string).

Abbreviation host_step := (host_step fs_exists default_filter_call).
Abbreviation host_run := (host_run fs_exists default_filter_call).
Abbreviation boot := (boot package_dir uuid4).
Abbreviation on_app_init := (on_app_init package_dir).
Abbreviation listener_run := (run fs_exists default_filter_call).

Lemma host_run_invariant (Q : Process → Prop) :
  (∀ a P P', Q P → host_step a P = Some P' → Q P') →
  ∀ sched P P', Q P → host_run sched P = Some P' → Q P'.
Proof.
  intros Hstep sched.
  induction sched as [|a sched IH]; intros P P' HQ Hrun; simpl in Hrun.
  - by simplify_eq.
  - destruct (host_step a P) as [P1|] eqn:Ha; [|done].
    eapply IH; [|done]. by eapply Hstep.
Qed.

(** No step of the host touches the module's global, calls [uuid4] or
    changes the route table. *)
Lemma host_step_static a P P' :
  host_step a P = Some P' →
  version_id P' = version_id P ∧ uuid_calls P' = uuid_calls P ∧ app P' = app P.
Proof.
  intros H. destruct a as [c|c a]; cbn in H; repeat case_match; by simplify_eq.
Qed.

(** Every session is a run of the listener class the route table holds, in
    a process with this module's [version_id]. *)
Lemma host_step_sessions a P P' :
  (∀ c cfg s, sessions P !! c = Some (cfg, s) →
     reload_route (route_handlers (app P)) = Some cfg ∧
     ∃ sched, listener_run cfg (version_id P) sched (init_session c) = Some s) →
  host_step a P = Some P' →
  (∀ c cfg s, sessions P' !! c = Some (cfg, s) →
     reload_route (route_handlers (app P')) = Some cfg ∧
     ∃ sched, listener_run cfg (version_id P') sched (init_session c) = Some s).
Proof.
  intros HP H c cfg s.
  destruct a as [c0|c0 a]; cbn in H; repeat case_match; simplify_eq; cbn.
  - rewrite lookup_insert. case_decide; simplify_eq.
    + intros [= <- <-]. split; [done|]. by exists [].
    + intros Hl. destruct (HP _ _ _ Hl) as [? ?]. split; [congruence|done].
  - rewrite lookup_insert. case_decide; simplify_eq; [|by apply HP].
    intros [= <- <-].
    match goal with Hl : sessions P !! _ = Some _ |- _ =>
      destruct (HP _ _ _ Hl) as [Hr [sched Hs]] end.
    split; [done|]. exists (sched ++ [a]).
    rewrite run_app, Hs. cbn. by case_match; simplify_eq.
Qed.

Lemma reachable_process self app_config sched P :
  host_run sched (boot self app_config) = Some P →
  version_id P = uuid4 0 ∧ uuid_calls P = 1 ∧
  app P = on_app_init self app_config ∧
  ∀ c cfg s, sessions P !! c = Some (cfg, s) →
    reload_route (route_handlers (app P)) = Some cfg ∧
    ∃ sched, listener_run cfg (version_id P) sched (init_session c) = Some s.
Proof.
  intros Hrun.
  apply (host_run_invariant
    (λ P, version_id P = uuid4 0 ∧ uuid_calls P = 1 ∧
          app P = on_app_init self app_config ∧
          ∀ c cfg s, sessions P !! c = Some (cfg, s) →
            reload_route (route_handlers (app P)) = Some cfg ∧
            ∃ sched, listener_run cfg (version_id P) sched (init_session c) = Some s))
    with (sched := sched) (P := boot self app_config); [| |done].
  - intros a P1 P2 (Hv & Hu & Ha & Hs) Hstep.
    destruct (host_step_static _ _ _ Hstep) as (-> & -> & ->).
    split_and!; [done..|]. intros c cfg s Hl.
    destruct (host_step_sessions _ _ _ Hs Hstep _ _ _ Hl) as [Hr Hx].
    destruct (host_step_static _ _ _ Hstep) as (Ev & _ & Ea).
    by rewrite <- Ev, <- Ea.
  - split_and!; [done..|]. intros c cfg s. cbn. by rewrite lookup_empty.
Qed.

(** C4. The process reads [uuid4] once, when the module is loaded, and no
    step of the host changes [version_id] afterwards; so whatever two
    sessions of one process have as ping on their wires, the two version
    ids are the same string, the one generated at load. *)
Theorem version_id_shared self app_config sched P c1 c2 cfg1 cfg2 s1 s2 i1 i2 v1 v2 :
  host_run sched (boot self app_config) = Some P →
  sessions P !! c1 = Some (cfg1, s1) → sessions P !! c2 = Some (cfg2, s2) →
  wire c1 (trace s1) !! i1 = Some (PJson (ping_msg v1)) →
  wire c2 (trace s2) !! i2 = Some (PJson (ping_msg v2)) →
  v1 = v2 ∧ v1 = uuid4 0 ∧ version_id P = uuid4 0 ∧ uuid_calls P = 1.
Proof.
  intros Hrun H1 H2 Hp1%list_elem_of_lookup_2 Hp2%list_elem_of_lookup_2.
  destruct (reachable_process _ _ _ _ Hrun) as (Hv & Hu & _ & Hs).
  destruct (Hs _ _ _ H1) as [_ [sched1 Hr1]].
  destruct (Hs _ _ _ H2) as [_ [sched2 Hr2]].
  apply reachable_emittable in Hr1, Hr2. rewrite Forall_forall in Hr1, Hr2.
  apply wire_elem, Hr1 in Hp1. apply wire_elem, Hr2 in Hp2.
  rewrite Hv in Hp1, Hp2.
  assert (v1 = uuid4 0) as E1 by (inversion Hp1; by simplify_eq).
  assert (v2 = uuid4 0) as E2 by (inversion Hp2; by simplify_eq).
  split_and!; congruence.
Qed.

(** C5. With [debug] off [on_app_init] returns the configuration it was
    given, and in a host whose own route table has no reload endpoint no
    session ever exists, hence no watch task and no watcher.  With [debug]
    on it appends exactly two handlers, the reload endpoint closed over the
    plugin's four settings and then the router of the static files, after
    the handlers that were there. *)
Theorem on_app_init_gated self app_config :
  if debug app_config then
    debug (on_app_init self app_config) = true ∧
    route_handlers (on_app_init self app_config) =
      route_handlers app_config ++
      [reload_endpoint (self_watch_paths self) (self_ignore_dirs self)
         (self_ignore_entity_patterns self) (self_watch_filter self);
       create_static_files_router [package_dir ++ ["static"]]
         "/__reload__/static" "browser_reload_static"
         [("exclude_from_auth", true)] false]
  else
    on_app_init self app_config = app_config ∧
    ∀ sched P,
      reload_route (route_handlers app_config) = None →
      host_run sched (boot self app_config) = Some P →
      sessions P = ∅.
Proof.
  destruct (debug app_config) eqn:Hd.
  - unfold on_app_init. rewrite Hd. cbn.
    by rewrite <- app_assoc.
  - assert (on_app_init self app_config = app_config) as Hinit.
    { unfold on_app_init. by rewrite Hd. }
    split; [done|]. intros sched P Hnone Hrun.
    destruct (reachable_process _ _ _ _ Hrun) as (_ & _ & Ha & Hs).
    apply map_empty. intros c.
    destruct (sessions P !! c) as [[cfg s]|] eqn:Hl; [|done].
    destruct (Hs _ _ _ Hl) as [Hr _]. congruence.
Qed.

End HostFacts.

(** ** The theorems at the runs above *)

Lemma ping_precedes_every_reload_witness :
  demo_run demo_life = Some demo_end ∧
  (∀ p, head (wire 7 (trace demo_end)) = Some p → p = PJson (ping_msg "v1")) ∧
  (∀ i, wire 7 (trace demo_end) !! i = Some (PJson reload_msg) →
        0 < i ∧ wire 7 (trace demo_end) !! 0 = Some (PJson (ping_msg "v1"))) ∧
  (∀ i, wire 7 (trace demo_end) !! i = Some (PJson (ping_msg "v1")) → i = 0).
Proof.
  split; [reflexivity|].
  apply (ping_precedes_every_reload (λ _, true) (λ _ _ _ _, true) demo_cfg "v1"
           7 demo_life demo_end).
  reflexivity.
Defined.

(** The ping could not be sent, and the watch task runs all the same; and
    with the ping sent, the task runs before the send has completed. *)
Lemma failed_ping_watch_task_runs :
  demo_run demo_lost = Some demo_lost_end ∧
  wire 7 (trace demo_lost_end) = [] ∧
  phase demo_lost_end = Closed (Raised WebSocketDisconnect) ∧
  watch_task demo_lost_end = Some TAwaitBatch ∧
  trace demo_lost_end !! 2 = Some (EvAwatch [["src"]] (DefaultFilter None None)) ∧
  demo_run [Accept; WatchStart] = Some demo_early_end ∧
  phase demo_early_end = Accepting ∧
  watch_task demo_early_end = Some TAwaitBatch.
Proof. by split_and!. Qed.

Lemma watch_task_created_before_ping_witness :
  demo_run demo_lost = Some demo_lost_end ∧
  phase demo_lost_end ≠ Connecting ∧
  watch_task demo_lost_end ≠ None ∧
  (∃ rest, trace demo_lost_end =
             EvLog "reload websocket connecting" :: EvCreateTask :: rest) ∧
  (PJson (ping_msg "v1") ∉ wire 7 (trace demo_lost_end) →
     phase demo_lost_end = Closed (Raised WebSocketDisconnect) ∧
     connected demo_lost_end = false ∧ must_cancel demo_lost_end = false).
Proof.
  split; [reflexivity|]. split; [discriminate|].
  apply (watch_task_created_before_ping (λ _, true) (λ _ _ _ _, true) demo_cfg
           "v1" 7 demo_lost demo_lost_end); [reflexivity|discriminate].
Defined.

(** The watch task has ended with the watcher's exception; the teardown
    raises it again and logs nothing about it. *)
Lemma watch_error_leaves_on_disconnect :
  demo_missing_run [Accept; AcceptResumed; WatchStart] (init_session 7)
    = Some demo_missing_mid ∧
  demo_missing_run [Disconnect] demo_missing_mid = Some demo_missing_end ∧
  phase demo_missing_end = Closed (Raised FileNotFoundError) ∧
  trace demo_missing_end =
    trace demo_missing_mid ++ [EvLog "reload websocket disconnecting"].
Proof. by split_and!. Qed.

Lemma teardown_catches_only_cancellation_witness :
  phase demo_missing_mid = Active ∧
  watch_task demo_missing_mid = Some (TDone (Raised FileNotFoundError)) ∧
  FileNotFoundError ≠ CancelledError ∧
  demo_missing_run [Disconnect] demo_missing_mid =
    Some (set_phase (Closed (Raised FileNotFoundError))
            (emit (EvLog "reload websocket disconnecting") demo_missing_mid)).
Proof.
  split; [reflexivity|]. split; [reflexivity|]. split; [discriminate|].
  apply (teardown_catches_only_cancellation (λ _, false) (λ _ _ _ _, true)
           demo_cfg "v1" demo_missing_mid (TDone (Raised FileNotFoundError)));
    [reflexivity|reflexivity|discriminate].
Defined.

Lemma version_id_shared_witness :
  demo_host_run demo_app demo_clients = Some demo_process ∧
  "8c1e" = "8c1e" ∧ "8c1e" = demo_uuid4 0 ∧
  version_id demo_process = demo_uuid4 0 ∧ uuid_calls demo_process = 1.
Proof.
  split; [vm_compute; reflexivity|].
  apply (version_id_shared (λ _, true) (λ _ _ _ _, true) ["pkg"] demo_uuid4
           demo_plugin demo_app demo_clients demo_process 1 2
           (mkConfig [["src"]] (Some ["node_modules"]) None None)
           (mkConfig [["src"]] (Some ["node_modules"]) None None)
           (demo_accepted 1) (demo_accepted 2) 0 0 "8c1e" "8c1e");
    vm_compute; reflexivity.
Defined.

Lemma on_app_init_gated_witness :
  (debug (on_app_init ["pkg"] demo_plugin demo_app) = true ∧
   route_handlers (on_app_init ["pkg"] demo_plugin demo_app) =
     [HostHandler "/";
      ReloadEndpoint (mkConfig [["src"]] (Some ["node_modules"]) None None);
      StaticFilesRouter [["pkg"; "static"]] "/__reload__/static"
        "browser_reload_static" [("exclude_from_auth", true)] false]) ∧
  (on_app_init ["pkg"] demo_plugin demo_app_off = demo_app_off ∧
   ∀ sched P,
     reload_route (route_handlers demo_app_off) = None →
     demo_host_run demo_app_off sched = Some P →
     sessions P = ∅).
Proof.
  split.
  - apply (on_app_init_gated (λ _, true) (λ _ _ _ _, true) ["pkg"] demo_uuid4
             demo_plugin demo_app).
  - apply (on_app_init_gated (λ _, true) (λ _ _ _ _, true) ["pkg"] demo_uuid4
             demo_plugin demo_app_off).
Defined.




Lemma prompt_reload_guard_witness :
  prompt_reload demo_early_end = (Ok tt, demo_prompted) ∧
  (ws demo_early_end = None →
     Ok tt = Err (AttributeError "ws") ∧ demo_prompted = demo_early_end) ∧
  (∀ w, ws demo_early_end = Some w → truthy w = false →
     Ok tt = Ok tt ∧ demo_prompted = demo_early_end) ∧
  (∀ c p, EvSend c p ∈ trace demo_prompted → EvSend c p ∉ trace demo_early_end →
     p = PJson reload_msg ∧ ws demo_early_end = Some (PyWebSocket c) ∧
     truthy (PyWebSocket c) = true ∧ connected demo_early_end = true ∧
     trace demo_prompted =
       trace demo_early_end ++ [EvLog "prompting reload"; EvSend c p]).
Proof.
  split; [reflexivity|].
  apply (prompt_reload_guard demo_early_end (Ok tt) demo_prompted).
  reflexivity.
Defined.
